(** * The SVG/WebP uploader widget (src/App.tsx)

    A shallow embedding of the [App] component: its five React state
    cells, the file readers started by [readFileAsDataUrl] and still in
    flight, and the calls made to the Wix editor SDK.  Every handler of
    the component is a function on that world; the browser is the list
    of events it delivers. *)

From stdpp Require Import base decidable option list strings.
From Stdlib Require Import ZArith.

Open Scope string_scope.
Open Scope list_scope.

(** ** JavaScript primitives used by the component *)

Module JS.

(** [!x] on a value of type [string | null] is false exactly for a
    non-empty string: both [null] and the empty string are falsy. *)
Definition truthy (x : option string) : bool :=
  match x with
  | None => false
  | Some s => negb (String.eqb s "")
  end.

(** [Array.prototype.includes] on an array of strings: SameValueZero on
    strings is equality of the code units, nothing is normalised. *)
Definition includes (xs : list string) (x : string) : bool :=
  bool_decide (x ∈ xs).

(** [files?.[0]]: [files] may be [null]; index 0 of an empty list is
    [undefined]. *)
Definition first {A} (files : option (list A)) : option A :=
  match files with
  | None => None
  | Some fs => fs !! 0%nat
  end.

End JS.

(** ** The platform's [File]: the two properties the component reads *)

Module File.
Record t := mk { type : string; name : string }.
End File.

(** ** The editor SDK: [editor.addComponent] *)

Module Editor.
Record Data := mkData { src : string; name : string }.
Record Style := mkStyle { width : Z; height : Z }.
Record Component := mkComponent { type : string; data : Data; style : Style }.
End Editor.

(** ** State *)

(** The [useState] cells of [App], lines 9-13. *)
Record State := mkState {
  imageDataUrl : option string;
  fileName : option string;
  fileType : option string;
  error : option string;
  dragActive : bool
}.

(** The component's cells, the [FileReader]s whose [readAsDataURL] has not
    completed yet (each remembers the [file] its callbacks close over, in
    the order they were started), and the log of [editor.addComponent]
    calls. *)
Record World := mkWorld {
  ui : State;
  readers : list File.t;
  editorCalls : list Editor.Component
}.

Definition ALLOWED_TYPES : list string := ["image/svg+xml"; "image/webp"].

(** A handler runs to completion on the event loop: a world transformer. *)
Definition Handler := World → World.

Definition seq (a b : Handler) : Handler := λ w, b (a w).
Notation "a >>> b" := (seq a b) (at level 62, right associativity).

Definition skip : Handler := λ w, w.

Definition on_ui (f : State → State) : Handler :=
  λ w, mkWorld (f (ui w)) (readers w) (editorCalls w).

Definition setImageDataUrl (v : option string) : Handler :=
  on_ui (λ s, mkState v (fileName s) (fileType s) (error s) (dragActive s)).
Definition setFileName (v : option string) : Handler :=
  on_ui (λ s, mkState (imageDataUrl s) v (fileType s) (error s) (dragActive s)).
Definition setFileType (v : option string) : Handler :=
  on_ui (λ s, mkState (imageDataUrl s) (fileName s) v (error s) (dragActive s)).
Definition setError (v : option string) : Handler :=
  on_ui (λ s, mkState (imageDataUrl s) (fileName s) (fileType s) v (dragActive s)).
Definition setDragActive (v : bool) : Handler :=
  on_ui (λ s, mkState (imageDataUrl s) (fileName s) (fileType s) (error s) v).

(** [reader.readAsDataURL(file)]: the read is started and completes in a
    later event. *)
Definition readAsDataURL (file : File.t) : Handler :=
  λ w, mkWorld (ui w) (readers w ++ [file]) (editorCalls w).

(** [editor.addComponent(spec)]: fire and forget. *)
Definition addComponent (spec : Editor.Component) : Handler :=
  λ w, mkWorld (ui w) (readers w) (editorCalls w ++ [spec]).

(** ** The three messages of the error slot *)

Inductive IntakeError := UnsupportedType | ReadFailure | NoFileSelected.

Definition message (e : IntakeError) : string :=
  match e with
  | UnsupportedType => "Please upload an SVG or WebP file."
  | ReadFailure => "Failed to read the file."
  | NoFileSelected => "No image selected."
  end.

(** ** Handlers *)

(** Lines 16-21. *)
Definition reset : Handler :=
  setImageDataUrl None >>> setFileName None >>> setFileType None >>> setError None.

(** Lines 31-35: the [onload] callback of the reader started for [file]. *)
Definition onload (file : File.t) (result : string) : Handler :=
  setImageDataUrl (Some result) >>>
  setFileName (Some (File.name file)) >>>
  setFileType (Some (File.type file)).

(** Lines 36-38. *)
Definition onerror : Handler :=
  setError (Some "Failed to read the file.").

(** Lines 23-40. *)
Definition readFileAsDataUrl (file : File.t) : Handler :=
  if negb (JS.includes ALLOWED_TYPES (File.type file))
  then setError (Some "Please upload an SVG or WebP file.")
  else setError None >>> readAsDataURL file.

(** Lines 42-46. *)
Definition handleFileChange (files : option (list File.t)) : Handler :=
  match JS.first files with
  | None => skip
  | Some file => readFileAsDataUrl file
  end.

(** Lines 48-54. *)
Definition handleDrop (files : option (list File.t)) : Handler :=
  setDragActive false >>>
  match JS.first files with
  | Some file => readFileAsDataUrl file
  | None => skip
  end.

(** Lines 56-60. *)
Definition handleDragOver : Handler := setDragActive true.

(** Lines 62-66. *)
Definition handleDragLeave : Handler := setDragActive false.

(** Line 68: clicking the hidden input changes nothing by itself. *)
Definition openFilePicker : Handler := skip.

(** Lines 70-88.  Past the guard the three cells hold strings, which is
    what [default] reads off. *)
Definition insertToWixEditor : Handler :=
  λ w,
    if negb (JS.truthy (imageDataUrl (ui w)))
       || negb (JS.truthy (fileName (ui w)))
       || negb (JS.truthy (fileType (ui w)))
    then setError (Some "No image selected.") w
    else addComponent
           (Editor.mkComponent "Image"
              (Editor.mkData (default "" (imageDataUrl (ui w)))
                 (default "" (fileName (ui w))))
              (Editor.mkStyle 200 200)) w.

(** ** Events *)

(** What the browser can deliver to the rendered component (lines 99-155)
    and to the readers in flight. *)
Inductive Event :=
  | Change (files : option (list File.t))
  | Drop (files : option (list File.t))
  | DragEnter
  | DragOver
  | DragLeave
  | Click
  | ClearClick
  | InsertClick
  | ReaderLoad (i : nat) (result : string)
  | ReaderError (i : nat).

(** Line 127: the preview, and with it the two action buttons, is
    rendered only under [imageDataUrl &&]. *)
Definition previewRendered (w : World) : bool := JS.truthy (imageDataUrl (ui w)).

(** A reader fires one of its two callbacks once and is then finished. *)
Definition finish (i : nat) : Handler :=
  λ w, mkWorld (ui w) (delete i (readers w)) (editorCalls w).

(** The dropzone registers [onDrop], [onDragOver], [onDragLeave] and
    [onClick] (lines 103-108), the input [onChange] (line 120), the two
    buttons [onClick] (lines 149-150).  An event nobody listens to, such
    as dragenter, changes nothing. *)
Definition step (e : Event) : Handler :=
  match e with
  | Change files => handleFileChange files
  | Drop files => handleDrop files
  | DragEnter => skip
  | DragOver => handleDragOver
  | DragLeave => handleDragLeave
  | Click => openFilePicker
  | ClearClick => λ w, if previewRendered w then reset w else w
  | InsertClick => λ w, if previewRendered w then insertToWixEditor w else w
  | ReaderLoad i result =>
      λ w, match readers w !! i with
           | Some file => (finish i >>> onload file result) w
           | None => w
           end
  | ReaderError i =>
      λ w, match readers w !! i with
           | Some _ => (finish i >>> onerror) w
           | None => w
           end
  end.

Definition run (es : list Event) : Handler :=
  λ w, foldl (λ w e, step e w) w es.

Definition init : World :=
  mkWorld (mkState None None None None false) [] [].

Definition reachable (w : World) : Prop := ∃ es, run es init = w.

(** ** Reading the state as the intake result *)

Record DecodedImage := mkDecoded {
  dataUrl : string;
  decodedName : string;
  mimeType : string
}.

(** A decoded image is held when the three cells are all non-null. *)
Definition decoded (s : State) : option DecodedImage :=
  match imageDataUrl s, fileName s, fileType s with
  | Some url, Some nm, Some ty => Some (mkDecoded url nm ty)
  | _, _, _ => None
  end.

(** The guard of [insertToWixEditor] read positively. *)
Definition hasImage (s : State) : bool :=
  JS.truthy (imageDataUrl s) && JS.truthy (fileName s) && JS.truthy (fileType s).

Definition published (e : IntakeError) (w : World) : Prop :=
  error (ui w) = Some (message e).

(** An error and a decoded image are not held together. *)
Definition exclusive (w : World) : Prop :=
  ¬ (is_Some (decoded (ui w)) ∧ is_Some (error (ui w))).

(** The three cells hold the data URL [D], the name [N] and the type [T],
    none of them the empty string: the case in which the guard of
    [insertToWixEditor] lets the call through. *)
Definition currentImage (s : State) (D N T : string) : Prop :=
  imageDataUrl s = Some D ∧ fileName s = Some N ∧ fileType s = Some T
  ∧ D ≠ "" ∧ N ≠ "" ∧ T ≠ "".

(** What every session maintains: the three image cells are null
    together or hold strings together, the type then being an allowed
    one, and only files of an allowed type are being read. *)
Definition cellsTogether (s : State) : Prop :=
  (imageDataUrl s = None ∧ fileName s = None ∧ fileType s = None)
  ∨ (∃ D N T, imageDataUrl s = Some D ∧ fileName s = Some N ∧ fileType s = Some T
              ∧ JS.includes ALLOWED_TYPES T = true).

Definition wellFormed (w : World) : Prop :=
  cellsTogether (ui w)
  ∧ Forall (λ f, JS.includes ALLOWED_TYPES (File.type f) = true) (readers w).

(** ** Sample files and sessions *)

Definition logoSvg : File.t := File.mk "image/svg+xml" "logo.svg".
Definition photoPng : File.t := File.mk "image/png" "photo.png".
Definition logoUrl : string := "data:image/svg+xml;base64,PHN2Zy8+".

(** A file whose name is the empty string, as [new File(bits, "")] makes. *)
Definition blankWebp : File.t := File.mk "image/webp" "".
Definition blankUrl : string := "data:image/webp;base64,UklGRg==".

Definition fileA : File.t := File.mk "image/svg+xml" "a.svg".
Definition fileB : File.t := File.mk "image/webp" "b.webp".
Definition urlA : string := "data:image/svg+xml;base64,QQ==".
Definition urlB : string := "data:image/webp;base64,Qg==".

(** The logo was picked and its read completed. *)
Definition logoShown : World :=
  run [Change (Some [logoSvg]); ReaderLoad 0 logoUrl] init.

(** The unnamed file was dropped and its read completed. *)
Definition blankShown : World :=
  run [Drop (Some [blankWebp]); ReaderLoad 0 blankUrl] init.

(** A then B were picked; B's read completed, A's is still in flight. *)
Definition overlapping : World :=
  run [Change (Some [fileA]); Change (Some [fileB]); ReaderLoad 1 urlB] init.

(** ** The rendered tree (lines 99-155) *)

(** An element carries its string props, the names of the event props it
    is given a handler for, and its children. *)
#[warnings="-register-all"]
Inductive Node :=
  | Text (s : string)
  | Element (tag : string) (props : list (string * string))
      (handlers : list string) (children : list Node).

(** [{x}] for [x : string | null]: null renders nothing. *)
Definition child (x : option string) : list Node :=
  match x with
  | Some s => [Text s]
  | None => []
  end.

(** [{x && node}]: a null [x] renders nothing, an empty string renders
    itself, any other string renders the node. *)
Definition andNode (x : option string) (node : Node) : list Node :=
  match x with
  | None => []
  | Some s => if String.eqb s "" then [Text ""] else [node]
  end.

(** Lines 103-123. *)
Definition dropzone (s : State) : Node :=
  Element "div"
    [("className", "dropzone " ++ (if dragActive s then "active" else ""))%string;
     ("role", "button"); ("aria-label", "Upload area")]
    ["onDrop"; "onDragOver"; "onDragLeave"; "onClick"]
    [Element "p" [] [] [Text "Drag & drop your SVG/WebP here or click to browse"];
     Element "button" [("className", "browse"); ("type", "button")] ["onClick"]
       [Text "Choose file"];
     Element "input"
       [("type", "file"); ("accept", ".svg,.webp,image/svg+xml,image/webp");
        ("className", "hidden-input")]
       ["onChange"] []].

(** Line 125. *)
Definition errorBanner (s : State) : list Node :=
  andNode (error s)
    (Element "div" [("className", "error")] [] (child (error s))).

(** Lines 140-146: [fileType === 'image/svg+xml'] picks the element. *)
Definition imageFrame (s : State) : Node :=
  Element "div" [("className", "image-frame")] []
    [if bool_decide (fileType s = Some "image/svg+xml")
     then Element "object"
            [("data", default "" (imageDataUrl s)); ("type", "image/svg+xml");
             ("aria-label", "SVG preview")] [] []
     else Element "img"
            [("src", default "" (imageDataUrl s)); ("alt", "Preview")] [] []].

(** Lines 129-138. *)
Definition metaRows (s : State) : Node :=
  Element "div" [("className", "meta")] []
    [Element "div" [("className", "meta-row")] []
       [Element "span" [("className", "label")] [] [Text "File name:"];
        Element "span" [("className", "value")] [] (child (fileName s))];
     Element "div" [("className", "meta-row")] []
       [Element "span" [("className", "label")] [] [Text "Type:"];
        Element "span" [("className", "value")] [] (child (fileType s))]].

(** Lines 148-151. *)
Definition actions : Node :=
  Element "div" [("className", "actions")] []
    [Element "button" [("className", "secondary")] ["onClick"] [Text "Clear"];
     Element "button" [("className", "primary")] ["onClick"] [Text "Insert to Wix"]].

(** Lines 127-153. *)
Definition preview (s : State) : list Node :=
  andNode (imageDataUrl s)
    (Element "div" [("className", "preview")] []
       [metaRows s; imageFrame s; actions]).

(** Lines 99-155. *)
Definition render (s : State) : Node :=
  Element "div" [("className", "container")] []
    ([Element "h1" [] [] [Text "SVG/WebP Uploader"]; dropzone s]
     ++ errorBanner s ++ preview s).

(** ** The message listener (lines 90-97) *)

Module Window.

(** The listeners registered on [window], each an event type and the
    identity of the function registered, and the console: one entry per
    [console.log] call, its arguments in order. *)
Record t := mk {
  listeners : list (string * nat);
  console : list (list string)
}.

(** [addEventListener]: a listener already registered for the type is
    not registered again. *)
Definition addEventListener (type : string) (listener : nat) (win : t) : t :=
  if bool_decide ((type, listener) ∈ listeners win) then win
  else mk (listeners win ++ [(type, listener)]) (console win).

(** [removeEventListener]: the listener registered for the type, if any,
    is taken off. *)
Definition removeEventListener (type : string) (listener : nat) (win : t) : t :=
  mk (filter (λ l, l ≠ (type, listener)) (listeners win)) (console win).

End Window.

(** Lines 92-94: [handler], given the event's data. *)
Definition handler (data : string) (win : Window.t) : Window.t :=
  Window.mk (Window.listeners win)
    (Window.console win ++ [["Message from host:"; data]]).

(** Lines 95-96: the effect registers the [handler] it has just made,
    whose identity is [h], and returns the function that takes it off. *)
Definition messageEffect (h : nat) (win : Window.t)
  : Window.t * (Window.t → Window.t) :=
  (Window.addEventListener "message" h win,
   Window.removeEventListener "message" h).

(** A message event runs the component's [handler] when it is
    registered. *)
Definition dispatchMessage (h : nat) (data : string) (win : Window.t) : Window.t :=
  if bool_decide (("message", h) ∈ Window.listeners win)
  then handler data win else win.

(** ** Predicates on sessions *)

(** The error slot is empty or holds one of the three messages. *)
Definition errorKnown (w : World) : Prop :=
  error (ui w) = None ∨ ∃ e, published e w.

(** What [insertToWixEditor] passes to the editor. *)
Definition callShape (c : Editor.Component) : Prop :=
  Editor.type c = "Image"
  ∧ Editor.src (Editor.data c) ≠ ""
  ∧ Editor.name (Editor.data c) ≠ ""
  ∧ Editor.style c = Editor.mkStyle 200 200.

Definition isInsertClick (e : Event) : bool :=
  match e with
  | InsertClick => true
  | _ => false
  end.

(** The file an event delivers, if any, has a non-empty name. *)
Definition namedEvent (e : Event) : Prop :=
  match e with
  | Change files | Drop files =>
      match JS.first files with
      | Some file => File.name file ≠ ""
      | None => True
      end
  | _ => True
  end.

(** Names are non-empty throughout, and the no-image message is not
    shown. *)
Definition named (w : World) : Prop :=
  (∀ N, fileName (ui w) = Some N → N ≠ "")
  ∧ Forall (λ f, File.name f ≠ "") (readers w)
  ∧ ¬ published NoFileSelected w.

(** The drag flag as a two-state automaton reading the events. *)
Definition dragAfter (b : bool) (e : Event) : bool :=
  match e with
  | DragOver => true
  | DragLeave | Drop _ => false
  | _ => b
  end.

(** The events that write the three image cells. *)
Definition writesImage (e : Event) : bool :=
  match e with
  | ReaderLoad _ _ | ClearClick => true
  | _ => false
  end.

Definition imageCells (w : World) : option string * option string * option string :=
  (imageDataUrl (ui w), fileName (ui w), fileType (ui w)).

(** ** Basic facts about the primitives *)

Lemma includes_allowed (t : string) :
  JS.includes ALLOWED_TYPES t = true ↔ t = "image/svg+xml" ∨ t = "image/webp".
Proof.
  unfold JS.includes, ALLOWED_TYPES.
  rewrite bool_decide_eq_true, !elem_of_cons, elem_of_nil.
  tauto.
Qed.

Lemma includes_not_allowed (t : string) :
  JS.includes ALLOWED_TYPES t = false ↔ ¬ (t = "image/svg+xml" ∨ t = "image/webp").
Proof.
  rewrite <- includes_allowed. destruct (JS.includes ALLOWED_TYPES t); split; congruence.
Qed.

Lemma truthy_Some (s : string) : JS.truthy (Some s) = true ↔ s ≠ "".
Proof.
  simpl. destruct (String.eqb_spec s ""); simpl; split; congruence.
Qed.

Lemma readFileAsDataUrl_rejected (file : File.t) (w : World) :
  JS.includes ALLOWED_TYPES (File.type file) = false →
  readFileAsDataUrl file w = setError (Some (message UnsupportedType)) w.
Proof. intros H. unfold readFileAsDataUrl. now rewrite H. Qed.

Lemma readFileAsDataUrl_accepted (file : File.t) (w : World) :
  JS.includes ALLOWED_TYPES (File.type file) = true →
  readFileAsDataUrl file w = readAsDataURL file (setError None w).
Proof. intros H. unfold readFileAsDataUrl. now rewrite H. Qed.

(** ** Validation *)

(** C1: the media type is accepted exactly when it is one of the two
    strings of [ALLOWED_TYPES], compared as they are; a file of any other
    type gets the unsupported-type message and no read is started, a
    file of an allowed type gets its read started with the error slot
    empty. *)
Theorem validate_exact_match (mimeType : string) :
  (JS.includes ALLOWED_TYPES mimeType = true
   ↔ mimeType = "image/svg+xml" ∨ mimeType = "image/webp")
  ∧ (∀ file w,
       File.type file = mimeType →
       ¬ (mimeType = "image/svg+xml" ∨ mimeType = "image/webp") →
       published UnsupportedType (readFileAsDataUrl file w)
       ∧ readers (readFileAsDataUrl file w) = readers w)
  ∧ (∀ file w,
       File.type file = mimeType →
       mimeType = "image/svg+xml" ∨ mimeType = "image/webp" →
       error (ui (readFileAsDataUrl file w)) = None
       ∧ readers (readFileAsDataUrl file w) = readers w ++ [file]).
Proof.
  split; [apply includes_allowed|]. split.
  - intros file w <- Hno. apply includes_not_allowed in Hno.
    now rewrite readFileAsDataUrl_rejected.
  - intros file w <- Hyes. apply includes_allowed in Hyes.
    now rewrite readFileAsDataUrl_accepted.
Qed.

Lemma validate_exact_match_witness :
  published UnsupportedType (readFileAsDataUrl (File.mk "IMAGE/WEBP" "a.webp") init)
  ∧ error (ui (readFileAsDataUrl (File.mk "image/webp" "a.webp") init)) = None.
Proof.
  split.
  - apply (proj1 (proj2 (validate_exact_match "IMAGE/WEBP"))
             (File.mk "IMAGE/WEBP" "a.webp") init eq_refl).
    intros [H | H]; discriminate H.
  - apply (proj2 (proj2 (validate_exact_match "image/webp"))
             (File.mk "image/webp" "a.webp") init eq_refl).
    right; reflexivity.
Defined.

(** A few rejected near misses: another case, a prefix, a wildcard, a
    parameter, the empty string. *)
Example near_misses_rejected :
  map (JS.includes ALLOWED_TYPES)
      ["image/SVG+XML"; "image/svg"; "image/*"; "image/webp;q=1"; " image/webp"; ""]
  = [false; false; false; false; false; false].
Proof. vm_compute. reflexivity. Qed.

(** ** Validation failure and the decoded image *)

(** C2, as stated, fails: with a decoded image current, picking a PNG
    publishes the unsupported-type message and leaves the image where it
    was, so both are current. *)
Lemma rejected_file_keeps_image :
  decoded (ui logoShown) = Some (mkDecoded logoUrl "logo.svg" "image/svg+xml")
  ∧ published UnsupportedType (step (Change (Some [photoPng])) logoShown)
  ∧ decoded (ui (step (Change (Some [photoPng])) logoShown))
    = Some (mkDecoded logoUrl "logo.svg" "image/svg+xml")
  ∧ reachable (step (Change (Some [photoPng])) logoShown)
  ∧ ¬ exclusive (step (Change (Some [photoPng])) logoShown).
Proof.
  repeat split.
  - exists [Change (Some [logoSvg]); ReaderLoad 0 logoUrl; Change (Some [photoPng])].
    reflexivity.
  - intros H. apply H. split; vm_compute; eauto.
Qed.

(** C2 (amended): when the candidate's type is not allowed, the
    unsupported-type message becomes the current error and nothing else
    changes: the three image cells, the drag flag, the readers in flight
    and the editor calls are as before. *)
Theorem rejected_file_sets_only_error (file : File.t) (w : World) :
  JS.includes ALLOWED_TYPES (File.type file) = false →
  readFileAsDataUrl file w
  = mkWorld
      (mkState (imageDataUrl (ui w)) (fileName (ui w)) (fileType (ui w))
         (Some (message UnsupportedType)) (dragActive (ui w)))
      (readers w) (editorCalls w)
  ∧ decoded (ui (readFileAsDataUrl file w)) = decoded (ui w).
Proof.
  intros H. rewrite readFileAsDataUrl_rejected by exact H. split; reflexivity.
Qed.

Lemma rejected_file_sets_only_error_witness :
  decoded (ui (readFileAsDataUrl photoPng logoShown))
  = Some (mkDecoded logoUrl "logo.svg" "image/svg+xml").
Proof.
  rewrite (proj2 (rejected_file_sets_only_error photoPng logoShown eq_refl)).
  reflexivity.
Defined.

(** ** Export *)

Lemma hasImage_currentImage (s : State) :
  hasImage s = true ↔ ∃ D N T, currentImage s D N T.
Proof.
  unfold hasImage, currentImage. rewrite !andb_true_iff. split.
  - intros [[H1 H2] H3].
    destruct (imageDataUrl s) as [D|]; [|discriminate].
    destruct (fileName s) as [N|]; [|discriminate].
    destruct (fileType s) as [T|]; [|discriminate].
    apply truthy_Some in H1, H2, H3. exists D, N, T. tauto.
  - intros (D & N & T & -> & -> & -> & HD & HN & HT).
    now rewrite !(proj2 (truthy_Some _)).
Qed.

Lemma insert_guard (w : World) :
  negb (JS.truthy (imageDataUrl (ui w))) || negb (JS.truthy (fileName (ui w)))
  || negb (JS.truthy (fileType (ui w))) = negb (hasImage (ui w)).
Proof. unfold hasImage. now rewrite !negb_andb. Qed.

Lemma insert_without_image (w : World) :
  hasImage (ui w) = false →
  insertToWixEditor w = setError (Some (message NoFileSelected)) w.
Proof. intros H. unfold insertToWixEditor. now rewrite insert_guard, H. Qed.

Lemma insert_with_image (w : World) (D N T : string) :
  currentImage (ui w) D N T →
  insertToWixEditor w
  = addComponent
      (Editor.mkComponent "Image" (Editor.mkData D N) (Editor.mkStyle 200 200)) w.
Proof.
  intros H. unfold insertToWixEditor. rewrite insert_guard.
  rewrite (proj2 (hasImage_currentImage _)) by eauto.
  destruct H as (-> & -> & _). reflexivity.
Qed.

(** C3, as stated, fails for a decoded image whose file name is the empty
    string: the guard takes [!fileName] for a missing name, publishes the
    no-image message and does not call the editor. *)
Lemma export_skips_unnamed_image :
  decoded (ui blankShown) = Some (mkDecoded blankUrl "" "image/webp")
  ∧ step InsertClick blankShown = insertToWixEditor blankShown
  ∧ published NoFileSelected (insertToWixEditor blankShown)
  ∧ editorCalls (insertToWixEditor blankShown) = [].
Proof. repeat split. Qed.

(** C3 (amended): when one of the three cells is null or the empty string,
    export publishes the no-image message and makes no editor call; when
    they hold a non-empty data URL [D], name [N] and type, export calls
    [addComponent] exactly once, with [src = D], [name = N] and a 200 by
    200 style. *)
Theorem export_calls_host (w : World) :
  ((∀ D N T, ¬ currentImage (ui w) D N T) →
   published NoFileSelected (insertToWixEditor w)
   ∧ editorCalls (insertToWixEditor w) = editorCalls w)
  ∧ (∀ D N T,
       currentImage (ui w) D N T →
       ∃ c, editorCalls (insertToWixEditor w) = editorCalls w ++ [c]
            ∧ Editor.type c = "Image"
            ∧ Editor.src (Editor.data c) = D
            ∧ Editor.name (Editor.data c) = N
            ∧ Editor.width (Editor.style c) = 200%Z
            ∧ Editor.height (Editor.style c) = 200%Z).
Proof.
  split.
  - intros Hno.
    assert (hasImage (ui w) = false) as H.
    { destruct (hasImage (ui w)) eqn:E; [|reflexivity].
      apply hasImage_currentImage in E as (D & N & T & E). now destruct (Hno D N T). }
    rewrite insert_without_image by exact H. split; reflexivity.
  - intros D N T H. rewrite (insert_with_image w D N T H).
    eexists. repeat split.
Qed.

Lemma export_calls_host_witness :
  ∃ c, editorCalls (insertToWixEditor logoShown) = [] ++ [c]
       ∧ Editor.type c = "Image"
       ∧ Editor.src (Editor.data c) = logoUrl
       ∧ Editor.name (Editor.data c) = "logo.svg"
       ∧ Editor.width (Editor.style c) = 200%Z
       ∧ Editor.height (Editor.style c) = 200%Z.
Proof.
  apply (proj2 (export_calls_host logoShown) logoUrl "logo.svg" "image/svg+xml").
  repeat split; discriminate.
Defined.

(** ** Overlapping decodes *)

(** C4, as stated, fails: A is selected, B is selected before A's read
    completes, B's read completes, then A's: the current result is A. *)
Lemma stale_decode_is_committed :
  decoded (ui overlapping) = Some (mkDecoded urlB "b.webp" "image/webp")
  ∧ readers overlapping = [fileA]
  ∧ decoded (ui (step (ReaderLoad 0 urlA) overlapping))
    = Some (mkDecoded urlA "a.svg" "image/svg+xml")
  ∧ decoded (ui (step (ReaderLoad 0 urlA) overlapping))
    ≠ Some (mkDecoded urlB "b.webp" "image/webp")
  ∧ readers (step (ReaderLoad 0 urlA) overlapping) = [].
Proof. repeat split. discriminate. Qed.

(** C4 (amended): the result of a decode is committed when its read
    completes, whatever was selected in between: after the load of any
    reader in flight the current result is that reader's file and data
    URL, so of overlapping decodes the one that completes last stays. *)
Theorem load_commits_unconditionally
    (w : World) (i : nat) (file : File.t) (result : string) :
  readers w !! i = Some file →
  decoded (ui (step (ReaderLoad i result) w))
  = Some (mkDecoded result (File.name file) (File.type file))
  ∧ error (ui (step (ReaderLoad i result) w)) = error (ui w)
  ∧ readers (step (ReaderLoad i result) w) = delete i (readers w).
Proof. intros H. simpl. rewrite H. repeat split. Qed.

Lemma load_commits_unconditionally_witness :
  decoded (ui (step (ReaderLoad 0 urlA) overlapping))
  = Some (mkDecoded urlA "a.svg" "image/svg+xml").
Proof.
  apply (load_commits_unconditionally overlapping 0 fileA urlA).
  reflexivity.
Defined.

(** ** Recovery after a failure *)

Lemma first_cons {A} (x : A) (xs : list A) : JS.first (Some (x :: xs)) = Some x.
Proof. reflexivity. Qed.

Lemma lookup_appended {A} (l : list A) (x : A) : (l ++ [x]) !! length l = Some x.
Proof. induction l as [|y l IH]; [reflexivity | exact IH]. Qed.

Lemma delete_appended {A} (l : list A) (x : A) : delete (length l) (l ++ [x]) = l.
Proof. induction l as [|y l IH]; [reflexivity | simpl; f_equal; exact IH]. Qed.

Lemma load_of_newest (w : World) (file : File.t) (result : string) :
  step (ReaderLoad (length (readers w)) result) (readAsDataURL file (setError None w))
  = onload file result (setError None w).
Proof.
  unfold step, seq, finish, readAsDataURL. cbn [readers ui editorCalls setError on_ui].
  rewrite lookup_appended, delete_appended. reflexivity.
Qed.

(** C5: whatever was published before (in particular any of the three
    messages), selecting a file of an allowed type, by the picker or by a
    drop, empties the error slot and starts that file's read; when the
    read then completes the file is the current image and the slot is
    still empty. *)
Theorem valid_selection_clears_error
    (w : World) (file : File.t) (rest : list File.t) (result : string) :
  JS.includes ALLOWED_TYPES (File.type file) = true →
  error (ui (step (Change (Some (file :: rest))) w)) = None
  ∧ error (ui (step (Drop (Some (file :: rest))) w)) = None
  ∧ readers (step (Change (Some (file :: rest))) w) = readers w ++ [file]
  ∧ readers (step (Drop (Some (file :: rest))) w) = readers w ++ [file]
  ∧ decoded (ui (run [Change (Some (file :: rest));
                      ReaderLoad (length (readers w)) result] w))
    = Some (mkDecoded result (File.name file) (File.type file))
  ∧ error (ui (run [Change (Some (file :: rest));
                    ReaderLoad (length (readers w)) result] w)) = None.
Proof.
  intros H. unfold run. cbn [foldl].
  assert (step (Change (Some (file :: rest))) w
          = readAsDataURL file (setError None w)) as ->.
  { simpl. unfold handleFileChange. rewrite first_cons.
    now apply readFileAsDataUrl_accepted. }
  assert (step (Drop (Some (file :: rest))) w
          = readAsDataURL file (setError None (setDragActive false w))) as ->.
  { simpl. unfold handleDrop, seq. rewrite first_cons.
    now apply readFileAsDataUrl_accepted. }
  rewrite load_of_newest. repeat split.
Qed.

Lemma valid_selection_clears_error_witness :
  error (ui (step (Change (Some [logoSvg]))
               (step (Change (Some [photoPng])) init))) = None.
Proof.
  apply (valid_selection_clears_error
           (step (Change (Some [photoPng])) init) logoSvg [] logoUrl).
  reflexivity.
Defined.

(** The three failures, each followed by a valid pick. *)
Example recovery_from_each_failure :
  published UnsupportedType (run [Change (Some [photoPng])] init)
  ∧ error (ui (run [Change (Some [photoPng]); Change (Some [logoSvg])] init)) = None
  ∧ published ReadFailure (run [Change (Some [logoSvg]); ReaderError 0] init)
  ∧ error (ui (run [Change (Some [logoSvg]); ReaderError 0;
                    Drop (Some [logoSvg])] init)) = None
  ∧ published NoFileSelected (insertToWixEditor init)
  ∧ error (ui (run [Change (Some [logoSvg])] (insertToWixEditor init))) = None.
Proof. repeat split. Qed.

(** ** Events without a file *)

(** C6: a change event or a drop without a file publishes nothing and
    leaves the image cells and the error slot as they were; no read is
    started and the editor is not called.  The change event leaves the
    whole world as it was; the drop still ends the drag. *)
Theorem empty_event_is_silent (files : option (list File.t)) (w : World) :
  JS.first files = None →
  handleFileChange files w = w
  ∧ handleDrop files w = setDragActive false w
  ∧ imageDataUrl (ui (handleDrop files w)) = imageDataUrl (ui w)
  ∧ fileName (ui (handleDrop files w)) = fileName (ui w)
  ∧ fileType (ui (handleDrop files w)) = fileType (ui w)
  ∧ error (ui (handleDrop files w)) = error (ui w)
  ∧ readers (handleDrop files w) = readers w
  ∧ editorCalls (handleDrop files w) = editorCalls w.
Proof.
  intros H. unfold handleFileChange, handleDrop, seq. rewrite H.
  repeat split.
Qed.

Lemma empty_event_is_silent_witness :
  handleFileChange (Some []) (insertToWixEditor init) = insertToWixEditor init
  ∧ error (ui (handleDrop None init)) = None.
Proof.
  split.
  - apply (empty_event_is_silent (Some []) (insertToWixEditor init)). reflexivity.
  - apply (empty_event_is_silent None init). reflexivity.
Defined.

(** ** The drag flag *)

Lemma readFileAsDataUrl_drag (file : File.t) (b : bool) (w : World) :
  readFileAsDataUrl file (setDragActive b w)
  = setDragActive b (readFileAsDataUrl file w).
Proof. unfold readFileAsDataUrl. destruct (negb _); reflexivity. Qed.

Lemma readFileAsDataUrl_keeps_drag (file : File.t) (w : World) :
  dragActive (ui (readFileAsDataUrl file w)) = dragActive (ui w).
Proof. unfold readFileAsDataUrl. destruct (negb _); reflexivity. Qed.

(** C7, as stated, fails for drag-enter: nothing listens to it, so from
    the idle state a drag-enter leaves the flag off. *)
Lemma dragenter_is_not_handled :
  dragActive (ui (step DragEnter init)) = false
  ∧ dragActive (ui (step DragEnter init)) ≠ true
  ∧ dragActive (ui (step DragOver init)) = true.
Proof. repeat split. discriminate. Qed.

(** C7 (amended): from every state a drag-over sets the flag, a
    drag-leave or a drop clears it, and a drag-enter, which has no
    listener, changes nothing; the flag does not enter validation: intake
    of a file commutes with setting the flag. *)
Theorem drag_transitions (w : World) :
  dragActive (ui (step DragOver w)) = true
  ∧ dragActive (ui (step DragLeave w)) = false
  ∧ (∀ files, dragActive (ui (step (Drop files) w)) = false)
  ∧ step DragEnter w = w
  ∧ (∀ file b, readFileAsDataUrl file (setDragActive b w)
               = setDragActive b (readFileAsDataUrl file w)).
Proof.
  split; [reflexivity|]. split; [reflexivity|]. split; [|split].
  - intros files. simpl. unfold handleDrop, seq.
    destruct (JS.first files); [|reflexivity].
    now rewrite readFileAsDataUrl_keeps_drag.
  - reflexivity.
  - intros file b. apply readFileAsDataUrl_drag.
Qed.

(** ** Several files at once *)

(** C8: of the files of a change event or of a drop only the first is
    taken: the others do not change the outcome. *)
Theorem only_first_file (file : File.t) (rest : list File.t) (w : World) :
  handleFileChange (Some (file :: rest)) w = readFileAsDataUrl file w
  ∧ handleFileChange (Some (file :: rest)) w = handleFileChange (Some [file]) w
  ∧ handleDrop (Some (file :: rest)) w = handleDrop (Some [file]) w
  ∧ handleDrop (Some (file :: rest)) w = readFileAsDataUrl file (setDragActive false w).
Proof. repeat split. Qed.

(** ** Reset *)

(** C9: from every state reset empties the three image cells and the
    error slot and keeps the drag flag; readers in flight and the editor
    calls are not touched. *)
Theorem reset_clears_result (w : World) :
  reset w
  = mkWorld (mkState None None None None (dragActive (ui w)))
      (readers w) (editorCalls w).
Proof. reflexivity. Qed.

(** ** Export and the state *)

(** C10, as stated, fails: with the three cells non-null but the name
    empty, export writes the error slot. *)
Lemma export_changes_state_of_unnamed_image :
  imageDataUrl (ui blankShown) = Some blankUrl
  ∧ fileName (ui blankShown) = Some ""
  ∧ fileType (ui blankShown) = Some "image/webp"
  ∧ error (ui blankShown) = None
  ∧ error (ui (insertToWixEditor blankShown)) = Some "No image selected."
  ∧ ui (insertToWixEditor blankShown) ≠ ui blankShown.
Proof. repeat split. discriminate. Qed.

(** C10 (amended): when the three cells are non-null and non-empty,
    export leaves the five cells and the readers as they were; export
    changes a cell, the error slot, only when one of the three is null or
    empty. *)
Theorem export_keeps_state (w : World) :
  ((∃ D N T, currentImage (ui w) D N T) →
   ui (insertToWixEditor w) = ui w
   ∧ readers (insertToWixEditor w) = readers w)
  ∧ (ui (insertToWixEditor w) ≠ ui w →
     (∀ D N T, ¬ currentImage (ui w) D N T)
     ∧ ui (insertToWixEditor w) = ui (setError (Some (message NoFileSelected)) w)).
Proof.
  split.
  - intros (D & N & T & H). rewrite (insert_with_image w D N T H). split; reflexivity.
  - intros Hneq. destruct (hasImage (ui w)) eqn:E.
    + apply hasImage_currentImage in E as (D & N & T & H).
      rewrite (insert_with_image w D N T H) in Hneq. now destruct Hneq.
    + split.
      * intros D N T H.
        assert (hasImage (ui w) = true) by (apply hasImage_currentImage; eauto).
        congruence.
      * now rewrite insert_without_image.
Qed.

Lemma export_keeps_state_witness :
  ui (insertToWixEditor logoShown) = ui logoShown.
Proof.
  apply (proj1 (export_keeps_state logoShown)).
  exists logoUrl, "logo.svg", "image/svg+xml". repeat split; discriminate.
Defined.

(** ** Reachable states *)

Lemma readFileAsDataUrl_wellFormed (file : File.t) (w : World) :
  wellFormed w → wellFormed (readFileAsDataUrl file w).
Proof.
  intros [Hc Hr]. unfold readFileAsDataUrl.
  destruct (JS.includes ALLOWED_TYPES (File.type file)) eqn:E; simpl.
  - split; [exact Hc|]. apply Forall_app. split; [exact Hr|]. now constructor.
  - split; assumption.
Qed.

Lemma insertToWixEditor_wellFormed (w : World) :
  wellFormed w → wellFormed (insertToWixEditor w).
Proof.
  intros [Hc Hr]. unfold insertToWixEditor. destruct (_ || _); split; assumption.
Qed.

Lemma step_wellFormed (e : Event) (w : World) :
  wellFormed w → wellFormed (step e w).
Proof.
  intros Hw. destruct e as [files|files| | | | | | |i result|i]; simpl;
    try exact Hw.
  - unfold handleFileChange. destruct (JS.first files); [|exact Hw].
    now apply readFileAsDataUrl_wellFormed.
  - unfold handleDrop, seq. destruct (JS.first files).
    + apply readFileAsDataUrl_wellFormed. exact Hw.
    + exact Hw.
  - destruct (previewRendered w); [|exact Hw].
    destruct Hw as [_ Hr]. split; [left; repeat split | exact Hr].
  - destruct (previewRendered w); [|exact Hw].
    now apply insertToWixEditor_wellFormed.
  - destruct (readers w !! i) as [file|] eqn:E; [|exact Hw].
    destruct Hw as [_ Hr]. split.
    + right. exists result, (File.name file), (File.type file).
      repeat split. exact (proj1 (Forall_lookup _ _) Hr i file E).
    + simpl. now apply Forall_delete.
  - destruct (readers w !! i) as [file|] eqn:E; [|exact Hw].
    destruct Hw as [Hc Hr]. split; [exact Hc|]. simpl. now apply Forall_delete.
Qed.

Lemma run_wellFormed (es : list Event) (w : World) :
  wellFormed w → wellFormed (run es w).
Proof.
  revert w. induction es as [|e es IH]; intros w Hw; [exact Hw|].
  apply (IH (step e w)). now apply step_wellFormed.
Qed.

(** X1: in every state of a session the three image cells are null
    together or set together, the type then being one of the two allowed
    ones, and every read in flight is of a file of an allowed type. *)
Lemma reachable_wellFormed (w : World) : reachable w → wellFormed w.
Proof.
  intros [es <-]. apply run_wellFormed. split; [left; repeat split | constructor].
Qed.

Lemma reachable_wellFormed_witness : wellFormed overlapping.
Proof.
  apply (reachable_wellFormed overlapping).
  exists [Change (Some [fileA]); Change (Some [fileB]); ReaderLoad 1 urlB].
  reflexivity.
Defined.

Lemma run_cons (e : Event) (es : list Event) (w : World) :
  run (e :: es) w = run es (step e w).
Proof. reflexivity. Qed.

Lemma run_app (es1 es2 : list Event) (w : World) :
  run (es1 ++ es2) w = run es2 (run es1 w).
Proof. unfold run. apply foldl_app. Qed.

(** ** The error slot over a session *)

Lemma setError_known (m : IntakeError) (w : World) :
  errorKnown (setError (Some (message m)) w).
Proof. right. exists m. reflexivity. Qed.

Lemma readFileAsDataUrl_errorKnown (file : File.t) (w : World) :
  errorKnown (readFileAsDataUrl file w).
Proof.
  unfold readFileAsDataUrl. destruct (negb _).
  - apply (setError_known UnsupportedType).
  - left. reflexivity.
Qed.

Lemma step_errorKnown (e : Event) (w : World) :
  errorKnown w → errorKnown (step e w).
Proof.
  intros Hw. destruct e as [files|files| | | | | | |i result|i]; simpl;
    try exact Hw.
  - unfold handleFileChange. destruct (JS.first files); [|exact Hw].
    apply readFileAsDataUrl_errorKnown.
  - unfold handleDrop, seq. destruct (JS.first files); [|exact Hw].
    apply readFileAsDataUrl_errorKnown.
  - destruct (previewRendered w); [left; reflexivity | exact Hw].
  - destruct (previewRendered w); [|exact Hw].
    unfold insertToWixEditor. destruct (_ || _); [|exact Hw].
    apply (setError_known NoFileSelected).
  - destruct (readers w !! i); exact Hw.
  - destruct (readers w !! i); [|exact Hw]. apply (setError_known ReadFailure).
Qed.

Lemma run_errorKnown (es : list Event) (w : World) :
  errorKnown w → errorKnown (run es w).
Proof.
  revert w. induction es as [|e es IH]; intros w Hw; [exact Hw|].
  rewrite run_cons. apply IH. now apply step_errorKnown.
Qed.

(** X2: in every state of a session the error slot is empty or holds one
    of the three messages of the component, none of which is empty. *)
Theorem reachable_error_is_a_message (w : World) :
  reachable w →
  error (ui w) = None
  ∨ ∃ e, error (ui w) = Some (message e) ∧ JS.truthy (error (ui w)) = true.
Proof.
  intros [es <-].
  destruct (run_errorKnown es init (or_introl eq_refl)) as [H | [e H]].
  - left. exact H.
  - right. exists e. split; [exact H|]. rewrite H. now destruct e.
Qed.

Lemma reachable_error_is_a_message_witness :
  error (ui (run [Change (Some [logoSvg]); ReaderError 0] init)) = None
  ∨ ∃ e, error (ui (run [Change (Some [logoSvg]); ReaderError 0] init))
         = Some (message e)
         ∧ JS.truthy (error (ui (run [Change (Some [logoSvg]); ReaderError 0] init)))
           = true.
Proof.
  apply (reachable_error_is_a_message
           (run [Change (Some [logoSvg]); ReaderError 0] init)).
  exists [Change (Some [logoSvg]); ReaderError 0]. reflexivity.
Defined.

(** ** The calls made to the editor *)

Lemma editorCalls_readFileAsDataUrl (file : File.t) (w : World) :
  editorCalls (readFileAsDataUrl file w) = editorCalls w.
Proof. unfold readFileAsDataUrl. now destruct (negb _). Qed.

(** An event other than a click on Insert leaves the log as it is; a click
    on Insert adds at most one call, of the shape the component builds. *)
Lemma step_editorCalls (e : Event) (w : World) :
  editorCalls (step e w) = editorCalls w
  ∨ (e = InsertClick
     ∧ ∃ c, editorCalls (step e w) = editorCalls w ++ [c] ∧ callShape c
            ∧ imageDataUrl (ui w) = Some (Editor.src (Editor.data c))
            ∧ fileName (ui w) = Some (Editor.name (Editor.data c))).
Proof.
  destruct e as [files|files| | | | | | |i result|i]; simpl;
    try (left; reflexivity).
  - left. unfold handleFileChange. destruct (JS.first files); [|reflexivity].
    apply editorCalls_readFileAsDataUrl.
  - left. unfold handleDrop, seq. destruct (JS.first files); [|reflexivity].
    now rewrite editorCalls_readFileAsDataUrl.
  - left. now destruct (previewRendered w).
  - destruct (previewRendered w); [|left; reflexivity].
    destruct (hasImage (ui w)) eqn:E.
    + right. split; [reflexivity|].
      apply hasImage_currentImage in E as (D & N & T & H).
      rewrite (insert_with_image w D N T H).
      destruct H as (HD & HN & HT & ? & ? & ?).
      eexists. split; [reflexivity|]. repeat split; assumption.
    + left. now rewrite insert_without_image.
  - left. now destruct (readers w !! i).
  - left. now destruct (readers w !! i).
Qed.

(** X3: every call a session has made to the editor is an ["Image"]
    component with a non-empty [src], a non-empty [name] and the 200 by
    200 style. *)
Theorem reachable_calls_shape (w : World) :
  reachable w → Forall callShape (editorCalls w).
Proof.
  intros [es <-].
  assert (∀ w0, Forall callShape (editorCalls w0) →
                Forall callShape (editorCalls (run es w0))) as H.
  { induction es as [|e es IH]; intros w0 H0; [exact H0|].
    rewrite run_cons. apply IH.
    destruct (step_editorCalls e w0) as [-> | (_ & c & -> & Hc & _)];
      [exact H0|].
    apply Forall_app. split; [exact H0 | now constructor]. }
  apply H. constructor.
Qed.

Lemma reachable_calls_shape_witness :
  Forall callShape (editorCalls (run [InsertClick; InsertClick] logoShown)).
Proof.
  apply (reachable_calls_shape (run [InsertClick; InsertClick] logoShown)).
  exists [Change (Some [logoSvg]); ReaderLoad 0 logoUrl; InsertClick; InsertClick].
  reflexivity.
Defined.

(** X4: over any sequence of events the calls already made stay, in
    order, at the front of the log, and the log grows by at most one
    call for each click on Insert: no other event calls the editor. *)
Theorem calls_only_from_insert (es : list Event) (w : World) :
  editorCalls w `prefix_of` editorCalls (run es w)
  ∧ (length (editorCalls (run es w))
     ≤ length (editorCalls w)
       + length (filter (λ e, isInsertClick e = true) es))%nat.
Proof.
  revert w. induction es as [|e es IH]; intros w.
  - split; [reflexivity | simpl; lia].
  - rewrite run_cons. destruct (IH (step e w)) as [Hp Hl].
    destruct (step_editorCalls e w) as [Heq | (-> & c & Heq & _)].
    + rewrite Heq in Hp, Hl. split; [exact Hp|].
      rewrite filter_cons. case_decide; simpl; lia.
    + rewrite Heq in Hp, Hl. split.
      * etrans; [|exact Hp]. now apply prefix_app_r.
      * rewrite length_app in Hl. rewrite filter_cons_True by reflexivity.
        simpl in *. lia.
Qed.

(** ** Reads that fail, are overtaken or outlive a reset *)

Lemma step_change_accepted (file : File.t) (rest : list File.t) (w : World) :
  JS.includes ALLOWED_TYPES (File.type file) = true →
  step (Change (Some (file :: rest))) w = readAsDataURL file (setError None w).
Proof.
  intros H. simpl. unfold handleFileChange. rewrite first_cons.
  now apply readFileAsDataUrl_accepted.
Qed.

(** X5: picking a file of an allowed type whose read then fails leaves
    the world as it was before the pick except for the error slot, which
    holds the read-failure message: the image shown before stays, nothing
    of the failed file is published, no read is left in flight. *)
Theorem failed_read_only_sets_error
    (w : World) (file : File.t) (rest : list File.t) :
  JS.includes ALLOWED_TYPES (File.type file) = true →
  run [Change (Some (file :: rest)); ReaderError (length (readers w))] w
  = setError (Some (message ReadFailure)) w.
Proof.
  intros H. rewrite !run_cons, (step_change_accepted _ _ _ H).
  unfold run, step, seq, finish, onerror, readAsDataURL. simpl foldl.
  cbn [readers ui editorCalls setError on_ui].
  rewrite lookup_appended, delete_appended. reflexivity.
Qed.

Lemma failed_read_only_sets_error_witness :
  run [Change (Some [fileB]); ReaderError 0] logoShown
  = setError (Some (message ReadFailure)) logoShown.
Proof.
  apply (failed_read_only_sets_error logoShown fileB []). reflexivity.
Defined.

(** X6: Clear does not cancel a read in flight: when the read of [file]
    completes after the reset, [file] is the current image again, with
    the error slot empty. *)
Theorem reset_does_not_cancel
    (w : World) (i : nat) (file : File.t) (result : string) :
  previewRendered w = true →
  readers w !! i = Some file →
  decoded (ui (run [ClearClick; ReaderLoad i result] w))
  = Some (mkDecoded result (File.name file) (File.type file))
  ∧ decoded (ui (run [ClearClick] w)) = None
  ∧ error (ui (run [ClearClick; ReaderLoad i result] w)) = None.
Proof.
  intros Hp Hr.
  change (run [ClearClick; ReaderLoad i result] w)
    with (step (ReaderLoad i result) (step ClearClick w)).
  change (run [ClearClick] w) with (step ClearClick w).
  assert (step ClearClick w = reset w) as -> by (simpl; now rewrite Hp).
  unfold step. change (readers (reset w)) with (readers w). rewrite Hr.
  repeat split.
Qed.

Lemma reset_does_not_cancel_witness :
  decoded (ui (run [ClearClick; ReaderLoad 0 urlA] overlapping))
  = Some (mkDecoded urlA "a.svg" "image/svg+xml").
Proof.
  apply (reset_does_not_cancel overlapping 0 fileA urlA); reflexivity.
Defined.

(** X7: a drop is a drag-leave followed by a change event with the same
    files: both ways of handing a file in run the same intake. *)
Theorem drop_is_leave_then_change (files : option (list File.t)) (w : World) :
  step (Drop files) w = run [DragLeave; Change files] w.
Proof.
  rewrite !run_cons. simpl. unfold handleDrop, handleFileChange, seq, handleDragLeave.
  now destruct (JS.first files).
Qed.

Lemma step_load (w : World) (i : nat) (file : File.t) (result : string) :
  readers w !! i = Some file →
  step (ReaderLoad i result) w
  = mkWorld
      (mkState (Some result) (Some (File.name file)) (Some (File.type file))
         (error (ui w)) (dragActive (ui w)))
      (delete i (readers w)) (editorCalls w).
Proof. intros H. simpl. now rewrite H. Qed.

Lemma two_in_flight (w : World) (a b : File.t) :
  JS.includes ALLOWED_TYPES (File.type a) = true →
  JS.includes ALLOWED_TYPES (File.type b) = true →
  run [Change (Some [a]); Change (Some [b])] w
  = mkWorld
      (mkState (imageDataUrl (ui w)) (fileName (ui w)) (fileType (ui w)) None
         (dragActive (ui w)))
      (readers w ++ [a; b]) (editorCalls w).
Proof.
  intros Ha Hb. rewrite !run_cons, (step_change_accepted _ _ _ Ha),
    (step_change_accepted _ _ _ Hb).
  unfold run, readAsDataURL. simpl. now rewrite <- app_assoc.
Qed.

Lemma lookup_appended_two {A} (l : list A) (x y : A) :
  (l ++ [x; y]) !! length l = Some x ∧ (l ++ [x; y]) !! S (length l) = Some y.
Proof. induction l as [|z l IH]; [split; reflexivity | exact IH]. Qed.

Lemma delete_appended_two {A} (l : list A) (x y : A) :
  delete (length l) (l ++ [x; y]) = l ++ [y]
  ∧ delete (S (length l)) (l ++ [x; y]) = l ++ [x].
Proof.
  induction l as [|z l [IH1 IH2]]; [split; reflexivity|].
  split; simpl; f_equal; assumption.
Qed.

(** X8: of two reads in flight for files of allowed types, the one that
    completes last is the current image, whichever file was selected
    first; either way both reads are finished and the error slot is
    empty. *)
Theorem last_completion_wins
    (w : World) (a b : File.t) (ra rb : string) :
  JS.includes ALLOWED_TYPES (File.type a) = true →
  JS.includes ALLOWED_TYPES (File.type b) = true →
  run [Change (Some [a]); Change (Some [b]);
       ReaderLoad (length (readers w)) ra; ReaderLoad (length (readers w)) rb] w
  = mkWorld
      (mkState (Some rb) (Some (File.name b)) (Some (File.type b)) None
         (dragActive (ui w)))
      (readers w) (editorCalls w)
  ∧ run [Change (Some [a]); Change (Some [b]);
         ReaderLoad (S (length (readers w))) rb; ReaderLoad (length (readers w)) ra] w
    = mkWorld
        (mkState (Some ra) (Some (File.name a)) (Some (File.type a)) None
           (dragActive (ui w)))
        (readers w) (editorCalls w).
Proof.
  intros Ha Hb.
  change [Change (Some [a]); Change (Some [b]);
          ReaderLoad (length (readers w)) ra; ReaderLoad (length (readers w)) rb]
    with ([Change (Some [a]); Change (Some [b])]
          ++ [ReaderLoad (length (readers w)) ra; ReaderLoad (length (readers w)) rb]).
  change [Change (Some [a]); Change (Some [b]);
          ReaderLoad (S (length (readers w))) rb; ReaderLoad (length (readers w)) ra]
    with ([Change (Some [a]); Change (Some [b])]
          ++ [ReaderLoad (S (length (readers w))) rb;
              ReaderLoad (length (readers w)) ra]).
  rewrite !run_app, (two_in_flight w a b Ha Hb).
  destruct (lookup_appended_two (readers w) a b) as [L0 L1].
  destruct (delete_appended_two (readers w) a b) as [D0 D1].
  split; rewrite !run_cons; change (run [] ?x) with x.
  - rewrite (step_load _ _ a ra) by exact L0. cbn [readers ui editorCalls].
    rewrite D0, (step_load _ _ b rb) by apply lookup_appended.
    cbn [readers ui editorCalls error dragActive]. now rewrite delete_appended.
  - rewrite (step_load _ _ b rb) by exact L1. cbn [readers ui editorCalls].
    rewrite D1, (step_load _ _ a ra) by apply lookup_appended.
    cbn [readers ui editorCalls error dragActive]. now rewrite delete_appended.
Qed.

Lemma last_completion_wins_witness :
  run [Change (Some [fileA]); Change (Some [fileB]);
       ReaderLoad 1 urlB; ReaderLoad 0 urlA] init
  = mkWorld
      (mkState (Some urlA) (Some "a.svg") (Some "image/svg+xml") None false) [] [].
Proof.
  apply (proj2 (last_completion_wins init fileA fileB urlA urlB eq_refl eq_refl)).
Defined.

(** ** What each event may touch *)

Lemma step_dragActive (e : Event) (w : World) :
  dragActive (ui (step e w)) = dragAfter (dragActive (ui w)) e.
Proof.
  destruct e as [files|files| | | | | | |i result|i]; simpl; try reflexivity.
  - unfold handleFileChange. destruct (JS.first files); [|reflexivity].
    apply readFileAsDataUrl_keeps_drag.
  - unfold handleDrop, seq. destruct (JS.first files); [|reflexivity].
    now rewrite readFileAsDataUrl_keeps_drag.
  - now destruct (previewRendered w).
  - destruct (previewRendered w); [|reflexivity].
    unfold insertToWixEditor. now destruct (_ || _).
  - now destruct (readers w !! i).
  - now destruct (readers w !! i).
Qed.

(** X9: over any sequence of events the drag flag is what the two-state
    automaton computes from the drag-over, drag-leave and drop events
    alone: picking a file, a read completing or failing, Clear and
    Insert never touch it. *)
Theorem drag_flag_follows_drag_events (es : list Event) (w : World) :
  dragActive (ui (run es w)) = foldl dragAfter (dragActive (ui w)) es.
Proof.
  revert w. induction es as [|e es IH]; intros w; [reflexivity|].
  rewrite run_cons, IH, step_dragActive. reflexivity.
Qed.

Lemma imageCells_readFileAsDataUrl (file : File.t) (w : World) :
  imageCells (readFileAsDataUrl file w) = imageCells w.
Proof. unfold readFileAsDataUrl. now destruct (negb _). Qed.

(** X10: the three image cells are written only when a read completes
    and by Clear: every other event, a rejected or accepted selection, a
    failed read and Insert among them, leaves them as they are. *)
Theorem image_cells_frame (e : Event) (w : World) :
  writesImage e = false → imageCells (step e w) = imageCells w.
Proof.
  intros H. destruct e as [files|files| | | | | | |i result|i];
    try discriminate H; simpl; try reflexivity.
  - unfold handleFileChange. destruct (JS.first files); [|reflexivity].
    apply imageCells_readFileAsDataUrl.
  - unfold handleDrop, seq. destruct (JS.first files); [|reflexivity].
    now rewrite imageCells_readFileAsDataUrl.
  - destruct (previewRendered w); [|reflexivity].
    unfold insertToWixEditor. now destruct (_ || _).
  - now destruct (readers w !! i).
Qed.

Lemma image_cells_frame_witness :
  imageCells (step (Drop (Some [photoPng])) logoShown) = imageCells logoShown.
Proof.
  apply (image_cells_frame (Drop (Some [photoPng])) logoShown). reflexivity.
Defined.

(** ** Sessions in which every file has a name *)

Lemma allowed_nonempty (T : string) :
  JS.includes ALLOWED_TYPES T = true → T ≠ "".
Proof. intros H. apply includes_allowed in H as [-> | ->]; discriminate. Qed.

(** With the preview rendered, in a well-formed world whose names are
    non-empty the guard of [insertToWixEditor] lets the call through. *)
Lemma shown_image_is_current (w : World) :
  wellFormed w → named w → previewRendered w = true →
  ∃ D N T, currentImage (ui w) D N T.
Proof.
  intros [[(Hn & _) | (D & N & T & HD & HN & HT & Hall)] _] (Hname & _) Hp.
  - unfold previewRendered in Hp. rewrite Hn in Hp. discriminate.
  - exists D, N, T. unfold previewRendered in Hp. rewrite HD in Hp.
    apply truthy_Some in Hp. repeat split; try assumption.
    + now apply Hname.
    + now apply allowed_nonempty.
Qed.

Lemma readFileAsDataUrl_named (file : File.t) (w : World) :
  File.name file ≠ "" → named w → named (readFileAsDataUrl file w).
Proof.
  intros Hf (Hn & Hr & He). unfold readFileAsDataUrl.
  destruct (JS.includes ALLOWED_TYPES (File.type file)); simpl.
  - repeat split; [exact Hn | | discriminate].
    apply Forall_app. split; [exact Hr | now constructor].
  - repeat split; [exact Hn | exact Hr | discriminate].
Qed.

Lemma step_named (e : Event) (w : World) :
  namedEvent e → wellFormed w → named w → named (step e w).
Proof.
  intros He Hw Hn.
  destruct e as [files|files| | | | | | |i result|i]; simpl; try exact Hn.
  - unfold handleFileChange. simpl in He.
    destruct (JS.first files); [|exact Hn]. now apply readFileAsDataUrl_named.
  - unfold handleDrop, seq. simpl in He.
    destruct (JS.first files); [|exact Hn]. now apply readFileAsDataUrl_named.
  - destruct (previewRendered w); [|exact Hn].
    destruct Hn as (_ & Hr & _). repeat split; [discriminate | exact Hr | discriminate].
  - destruct (previewRendered w) eqn:Hp; [|exact Hn].
    destruct (shown_image_is_current w Hw Hn Hp) as (D & N & T & Hc).
    rewrite (insert_with_image w D N T Hc). exact Hn.
  - destruct (readers w !! i) as [file|] eqn:E; [|exact Hn].
    destruct Hn as (_ & Hr & Herr). repeat split.
    + simpl. intros N [= <-]. exact (proj1 (Forall_lookup _ _) Hr i file E).
    + simpl. now apply Forall_delete.
    + exact Herr.
  - destruct (readers w !! i) as [file|] eqn:E; [|exact Hn].
    destruct Hn as (Hname & Hr & _). repeat split.
    + exact Hname.
    + simpl. now apply Forall_delete.
    + discriminate.
Qed.

Lemma run_named (es : list Event) (w : World) :
  Forall namedEvent es → wellFormed w → named w →
  wellFormed (run es w) ∧ named (run es w).
Proof.
  revert w. induction es as [|e es IH]; intros w Hes Hw Hn; [now split|].
  apply Forall_cons in Hes as [He Hes]. rewrite run_cons.
  apply IH; [exact Hes | now apply step_wellFormed | now apply step_named].
Qed.

Lemma init_wellFormed : wellFormed init.
Proof. split; [left; repeat split | constructor]. Qed.

Lemma init_named : named init.
Proof. repeat split; [discriminate | constructor | discriminate]. Qed.

(** X11: in a session in which every file handed in has a non-empty name
    the no-image message is never shown: the Insert button exists only
    with the preview, and then the guard of [insertToWixEditor] passes. *)
Theorem no_image_message_needs_unnamed_file (es : list Event) :
  Forall namedEvent es → ¬ published NoFileSelected (run es init).
Proof.
  intros Hes.
  destruct (run_named es init Hes init_wellFormed init_named) as (_ & _ & _ & H).
  exact H.
Qed.

Lemma no_image_message_needs_unnamed_file_witness :
  ¬ published NoFileSelected
      (run [InsertClick; Change (Some [logoSvg]); InsertClick;
            ReaderLoad 0 logoUrl; InsertClick] init).
Proof.
  apply (no_image_message_needs_unnamed_file
           [InsertClick; Change (Some [logoSvg]); InsertClick;
            ReaderLoad 0 logoUrl; InsertClick]).
  repeat constructor; discriminate.
Defined.

(** X12: in such a session, whenever the preview (and so the Insert
    button) is rendered, a click on Insert calls the editor exactly once,
    with the data URL and the name the preview shows, and leaves the
    component's state as it is. *)
Theorem insert_click_calls_editor (es : list Event) :
  Forall namedEvent es →
  previewRendered (run es init) = true →
  ∃ D N,
    imageDataUrl (ui (run es init)) = Some D
    ∧ fileName (ui (run es init)) = Some N
    ∧ step InsertClick (run es init)
      = addComponent
          (Editor.mkComponent "Image" (Editor.mkData D N) (Editor.mkStyle 200 200))
          (run es init).
Proof.
  intros Hes Hp.
  destruct (run_named es init Hes init_wellFormed init_named) as (Hw & Hn).
  destruct (shown_image_is_current _ Hw Hn Hp) as (D & N & T & Hc).
  exists D, N. simpl. rewrite Hp, (insert_with_image _ D N T Hc).
  destruct Hc as (HD & HN & _). repeat split; assumption.
Qed.

Lemma insert_click_calls_editor_witness :
  ∃ D N,
    imageDataUrl (ui (run [Change (Some [logoSvg]); ReaderLoad 0 logoUrl] init))
    = Some D
    ∧ fileName (ui (run [Change (Some [logoSvg]); ReaderLoad 0 logoUrl] init))
      = Some N
    ∧ step InsertClick (run [Change (Some [logoSvg]); ReaderLoad 0 logoUrl] init)
      = addComponent
          (Editor.mkComponent "Image" (Editor.mkData D N) (Editor.mkStyle 200 200))
          (run [Change (Some [logoSvg]); ReaderLoad 0 logoUrl] init).
Proof.
  apply (insert_click_calls_editor [Change (Some [logoSvg]); ReaderLoad 0 logoUrl]).
  - repeat constructor; discriminate.
  - reflexivity.
Defined.

(** ** What a session renders *)

(** X13: in every state of a session the error banner is rendered exactly
    when the error slot is non-null, as one [div] of class [error] whose
    text is the message in the slot. *)
Theorem banner_shows_the_message (w : World) :
  reachable w →
  errorBanner (ui w)
  = match error (ui w) with
    | Some m => [Element "div" [("className", "error")] [] [Text m]]
    | None => []
    end.
Proof.
  intros [es <-]. unfold errorBanner.
  destruct (run_errorKnown es init (or_introl eq_refl)) as [-> | [e ->]];
    [reflexivity|].
  now destruct e.
Qed.

Lemma banner_shows_the_message_witness :
  errorBanner (ui (step (Change (Some [photoPng])) logoShown))
  = match error (ui (step (Change (Some [photoPng])) logoShown)) with
    | Some m => [Element "div" [("className", "error")] [] [Text m]]
    | None => []
    end.
Proof.
  apply (banner_shows_the_message (step (Change (Some [photoPng])) logoShown)).
  exists [Change (Some [logoSvg]); ReaderLoad 0 logoUrl; Change (Some [photoPng])].
  reflexivity.
Defined.

(** X14: in every state of a session in which the preview is rendered,
    the three cells hold strings, the two rows show the name and the
    type, and the frame is an [object] fed the data URL when the type is
    image/svg+xml and an [img] fed the data URL when it is image/webp:
    the [img] branch is never taken for another type. *)
Theorem preview_matches_type (w : World) :
  reachable w →
  previewRendered w = true →
  ∃ D N T,
    imageCells w = (Some D, Some N, Some T)
    ∧ preview (ui w)
      = [Element "div" [("className", "preview")] []
           [metaRows (ui w); imageFrame (ui w); actions]]
    ∧ metaRows (ui w)
      = Element "div" [("className", "meta")] []
          [Element "div" [("className", "meta-row")] []
             [Element "span" [("className", "label")] [] [Text "File name:"];
              Element "span" [("className", "value")] [] [Text N]];
           Element "div" [("className", "meta-row")] []
             [Element "span" [("className", "label")] [] [Text "Type:"];
              Element "span" [("className", "value")] [] [Text T]]]
    ∧ ((T = "image/svg+xml"
        ∧ imageFrame (ui w)
          = Element "div" [("className", "image-frame")] []
              [Element "object"
                 [("data", D); ("type", "image/svg+xml");
                  ("aria-label", "SVG preview")] [] []])
       ∨ (T = "image/webp"
          ∧ imageFrame (ui w)
            = Element "div" [("className", "image-frame")] []
                [Element "img" [("src", D); ("alt", "Preview")] [] []])).
Proof.
  intros [es <-] Hp.
  destruct (run_wellFormed es init init_wellFormed) as [Hc _].
  unfold previewRendered in Hp.
  destruct Hc as [(Hn & _) | (D & N & T & HD & HN & HT & Hall)].
  - rewrite Hn in Hp. discriminate.
  - exists D, N, T. unfold imageCells, preview, metaRows, imageFrame.
    rewrite HD, HN, HT in *. simpl in Hp. unfold andNode.
    destruct (String.eqb D ""); [discriminate|].
    repeat split.
    apply includes_allowed in Hall as [-> | ->]; [left | right]; split;
      reflexivity.
Qed.

Lemma preview_matches_type_witness :
  ∃ D N T,
    imageCells overlapping = (Some D, Some N, Some T)
    ∧ preview (ui overlapping)
      = [Element "div" [("className", "preview")] []
           [metaRows (ui overlapping); imageFrame (ui overlapping); actions]]
    ∧ metaRows (ui overlapping)
      = Element "div" [("className", "meta")] []
          [Element "div" [("className", "meta-row")] []
             [Element "span" [("className", "label")] [] [Text "File name:"];
              Element "span" [("className", "value")] [] [Text N]];
           Element "div" [("className", "meta-row")] []
             [Element "span" [("className", "label")] [] [Text "Type:"];
              Element "span" [("className", "value")] [] [Text T]]]
    ∧ ((T = "image/svg+xml"
        ∧ imageFrame (ui overlapping)
          = Element "div" [("className", "image-frame")] []
              [Element "object"
                 [("data", D); ("type", "image/svg+xml");
                  ("aria-label", "SVG preview")] [] []])
       ∨ (T = "image/webp"
          ∧ imageFrame (ui overlapping)
            = Element "div" [("className", "image-frame")] []
                [Element "img" [("src", D); ("alt", "Preview")] [] []])).
Proof.
  apply (preview_matches_type overlapping).
  - exists [Change (Some [fileA]); Change (Some [fileB]); ReaderLoad 1 urlB].
    reflexivity.
  - reflexivity.
Defined.

(** ** The message listener *)

Lemma filter_all {A} (P : A → Prop) `{∀ x, Decision (P x)} (l : list A) :
  Forall P l → filter P l = l.
Proof.
  induction 1 as [|x l Hx _ IH]; [reflexivity|].
  rewrite filter_cons_True by exact Hx. now rewrite IH.
Qed.

(** X15: when the handler the effect makes is not registered yet, running
    the effect and then its cleanup leaves the window's listeners, those
    of others included and in their order, and the console exactly as
    they were. *)
Theorem effect_cleanup_restores (h : nat) (win : Window.t) :
  ("message", h) ∉ Window.listeners win →
  (messageEffect h win).2 (messageEffect h win).1 = win
  ∧ ("message", h) ∈ Window.listeners (messageEffect h win).1.
Proof.
  intros Hfresh. unfold messageEffect. cbn [fst snd].
  unfold Window.addEventListener. rewrite bool_decide_eq_false_2 by exact Hfresh.
  split.
  - unfold Window.removeEventListener. cbn [Window.listeners Window.console].
    rewrite filter_app, filter_cons_False, filter_nil, app_nil_r
      by (intros Hne; now apply Hne).
    rewrite filter_all; [now destruct win|].
    apply Forall_forall. intros l Hl ->. now apply Hfresh.
  - cbn [Window.listeners]. apply elem_of_app. right. now left.
Qed.

Lemma effect_cleanup_restores_witness :
  (messageEffect 7 (Window.mk [("message", 3%nat); ("resize", 7%nat)] [])).2
    (messageEffect 7 (Window.mk [("message", 3%nat); ("resize", 7%nat)] [])).1
  = Window.mk [("message", 3%nat); ("resize", 7%nat)] [].
Proof.
  apply (effect_cleanup_restores 7
           (Window.mk [("message", 3%nat); ("resize", 7%nat)] [])).
  vm_compute. intros H. inversion H as [|? ? ? H1]; subst.
  inversion H1 as [|? ? ? H2]; subst. inversion H2.
Defined.

(** X16: while the effect is in place each message from the host adds one
    console entry, the label followed by the data, and nothing else;
    once the cleanup has run a message adds nothing. *)
Theorem messages_are_only_logged (h : nat) (win : Window.t) (ds : list string) :
  Window.console
    (foldl (λ v d, dispatchMessage h d v) (messageEffect h win).1 ds)
  = Window.console win ++ map (λ d, ["Message from host:"; d]) ds
  ∧ Window.listeners
      (foldl (λ v d, dispatchMessage h d v) (messageEffect h win).1 ds)
    = Window.listeners (messageEffect h win).1
  ∧ ∀ v d, dispatchMessage h d ((messageEffect h win).2 v)
           = (messageEffect h win).2 v.
Proof.
  assert (("message", h) ∈ Window.listeners (messageEffect h win).1) as Hin.
  { unfold messageEffect, Window.addEventListener. cbn [fst].
    case_bool_decide as E; [exact E|]. cbn [Window.listeners].
    apply elem_of_app. right. now left. }
  assert (Window.console (messageEffect h win).1 = Window.console win) as Hc.
  { unfold messageEffect, Window.addEventListener. cbn [fst].
    now case_bool_decide. }
  split; [|split].
  - rewrite <- Hc. revert Hin. generalize (messageEffect h win).1 as v.
    induction ds as [|d ds IH]; intros v Hin; simpl; [now rewrite app_nil_r|].
    rewrite IH.
    + unfold dispatchMessage. rewrite bool_decide_eq_true_2 by exact Hin.
      simpl. now rewrite <- app_assoc.
    + unfold dispatchMessage. now rewrite bool_decide_eq_true_2 by exact Hin.
  - revert Hin. generalize (messageEffect h win).1 as v.
    induction ds as [|d ds IH]; intros v Hin; simpl; [reflexivity|].
    assert (Window.listeners (dispatchMessage h d v) = Window.listeners v) as E.
    { unfold dispatchMessage. now case_bool_decide. }
    rewrite IH; [exact E | now rewrite E].
  - intros v d. unfold messageEffect, dispatchMessage. cbn [snd].
    rewrite bool_decide_eq_false_2; [reflexivity|].
    unfold Window.removeEventListener. cbn [Window.listeners].
    intros Hin'. apply list_elem_of_filter in Hin' as [Hne _]. now apply Hne.
Qed.

(** ** An error published while a read is in flight *)

(** X17: the completion of a read does not clear the error slot: when a
    file of an allowed type is picked, then a file of another type, and
    the first read completes, the first file is the current image and
    the unsupported-type message is still in the slot. *)
Theorem load_keeps_later_error
    (w : World) (a b : File.t) (result : string) :
  JS.includes ALLOWED_TYPES (File.type a) = true →
  JS.includes ALLOWED_TYPES (File.type b) = false →
  run [Change (Some [a]); Change (Some [b]);
       ReaderLoad (length (readers w)) result] w
  = mkWorld
      (mkState (Some result) (Some (File.name a)) (Some (File.type a))
         (Some (message UnsupportedType)) (dragActive (ui w)))
      (readers w) (editorCalls w).
Proof.
  intros Ha Hb. rewrite !run_cons. change (run [] ?x) with x.
  rewrite (step_change_accepted _ _ _ Ha).
  assert (step (Change (Some [b])) (readAsDataURL a (setError None w))
          = setError (Some (message UnsupportedType))
              (readAsDataURL a (setError None w))) as ->.
  { simpl. unfold handleFileChange. rewrite first_cons.
    now apply readFileAsDataUrl_rejected. }
  rewrite (step_load _ _ a result) by apply lookup_appended.
  cbn [readers ui editorCalls error dragActive setError readAsDataURL on_ui].
  now rewrite delete_appended.
Qed.

Lemma load_keeps_later_error_witness :
  run [Change (Some [logoSvg]); Change (Some [photoPng]); ReaderLoad 0 logoUrl] init
  = mkWorld
      (mkState (Some logoUrl) (Some "logo.svg") (Some "image/svg+xml")
         (Some (message UnsupportedType)) false) [] [].
Proof.
  apply (load_keeps_later_error init logoSvg photoPng logoUrl); reflexivity.
Defined.
